(** * The build-metadata responder of [app/main.py]

    A shallow embedding of the two functions of the FastAPI example
    service, [_env] and [build_payload], and of the route [info] that
    returns the payload.  The process environment and the system clock
    are the only things the code touches; both are made explicit in a
    [World] that is threaded through a small state-and-exception monad,
    and every read is recorded so that the effects of a call can be
    stated. *)

From Stdlib Require Import Ascii String.
From stdpp Require Import gmap strings list fin_maps pretty.

Local Open Scope string_scope.

(** ** Python values *)

(** The part of Python's value universe that [build_payload] builds:
    strings, lists and dictionaries with string keys.  A [dict] keeps its
    insertion order, so it is an association list. *)
#[warnings="-register-all"]
Inductive value : Type :=
  | VStr (s : string)
  | VList (xs : list value)
  | VDict (items : list (string * value)).

(** [d[key]] on an association list: the first binding of [key]. *)
Fixpoint assoc (key : string) (items : list (string * value)) : option value :=
  match items with
  | [] => None
  | (k, v) :: rest => if String.eqb k key then Some v else assoc key rest
  end.

(** Field access on a dictionary value; anything else has no fields. *)
Definition field (key : string) (v : value) : option value :=
  match v with
  | VDict items => assoc key items
  | _ => None
  end.

(** Python exceptions, by class name. *)
Inductive exception : Type :=
  | Exception (cls : string).

(** How a call ends: with a value or with a raised exception. *)
Inductive outcome (A : Type) : Type :=
  | Returned (a : A)
  | Raised (e : exception).
Arguments Returned {A} a.
Arguments Raised {A} e.

(** ** [datetime] and its [isoformat] *)

(** An aware [datetime] whose [tzinfo] is [timezone.utc], as
    [datetime.now(timezone.utc)] builds it. *)
Record datetime : Type := mkDatetime {
  year : N;
  month : N;
  day : N;
  hour : N;
  minute : N;
  second : N;
  microsecond : N
}.

(** [s.rjust(width, "0")] for a string of digits. *)
Definition zfill (width : nat) (s : string) : string :=
  String.concat "" (replicate (width - String.length s) "0") +:+ s.

(** The conversion ["%0<width>d" % n] for a non-negative [n]. *)
Definition fmt_d (width : nat) (n : N) : string :=
  zfill width (pretty n).

(** [datetime.isoformat()] with the default separator and
    [timespec='auto'], for an aware datetime at offset zero: the
    fraction is printed only when [microsecond] is not zero, and the
    offset is always ["+00:00"]. *)
Definition isoformat (d : datetime) : string :=
  fmt_d 4 (year d) +:+ "-" +:+ fmt_d 2 (month d) +:+ "-" +:+ fmt_d 2 (day d)
  +:+ "T"
  +:+ fmt_d 2 (hour d) +:+ ":" +:+ fmt_d 2 (minute d) +:+ ":" +:+ fmt_d 2 (second d)
  +:+ (if N.eqb (microsecond d) 0 then "" else "." +:+ fmt_d 6 (microsecond d))
  +:+ "+00:00".

(** ** What an ISO-8601 rendering of an instant is *)

(** The invariants of a [datetime] object ([MINYEAR] is 1 and [MAXYEAR]
    is 9999). *)
Definition is_leap (y : N) : bool :=
  (y mod 4 =? 0)%N && (negb (y mod 100 =? 0)%N || (y mod 400 =? 0)%N).

Definition days_in_month (y m : N) : N :=
  match m with
  | 2 => if is_leap y then 29 else 28
  | 4 | 6 | 9 | 11 => 30
  | _ => 31
  end%N.

Definition valid_datetime (d : datetime) : bool :=
  (1 <=? year d)%N && (year d <=? 9999)%N
  && (1 <=? month d)%N && (month d <=? 12)%N
  && (1 <=? day d)%N && (day d <=? days_in_month (year d) (month d))%N
  && (hour d <? 24)%N && (minute d <? 60)%N && (second d <? 60)%N
  && (microsecond d <? 1000000)%N.

(** The value of a decimal digit: the characters ["0"] to ["9"] have
    the codes 48 to 57. *)
Definition digit_of (c : ascii) : option N :=
  let code := N_of_ascii c in
  if (48 <=? code)%N && (code <=? 57)%N then Some (code - 48)%N else None.

(** Read exactly [width] decimal digits off the front of [s]. *)
Fixpoint take_digits (width : nat) (acc : N) (s : string) : option (N * string) :=
  match width with
  | O => Some (acc, s)
  | S width' =>
      match s with
      | String c s' =>
          match digit_of c with
          | Some d => take_digits width' (10 * acc + d)%N s'
          | None => None
          end
      | EmptyString => None
      end
  end.

(** Read the character [c] off the front of [s]. *)
Definition expect (c : ascii) (s : string) : option string :=
  match s with
  | String c' s' => if Ascii.eqb c c' then Some s' else None
  | EmptyString => None
  end.

(** The optional fraction of a second: a dot and six digits. *)
Definition take_fraction (s : string) : option (N * string) :=
  match s with
  | String "." s' => take_digits 6 0 s'
  | _ => Some (0%N, s)
  end.

(** A reader of the extended ISO-8601 format
    [YYYY-MM-DDTHH:MM:SS[.ffffff]+00:00] for instants in UTC: it gives
    the instant a timestamp denotes, and nothing for any other string. *)
Definition parse_iso8601 (s : string) : option datetime :=
  '(y, s) ← take_digits 4 0 s;
  s ← expect "-" s;
  '(mo, s) ← take_digits 2 0 s;
  s ← expect "-" s;
  '(dd, s) ← take_digits 2 0 s;
  s ← expect "T" s;
  '(hh, s) ← take_digits 2 0 s;
  s ← expect ":" s;
  '(mi, s) ← take_digits 2 0 s;
  s ← expect ":" s;
  '(ss, s) ← take_digits 2 0 s;
  '(us, s) ← take_fraction s;
  let d := mkDatetime y mo dd hh mi ss us in
  if String.eqb s "+00:00" && valid_datetime d then Some d else None.

(** Exactly [width] decimal digits: the [width] lowest digits of [n],
    highest first. *)
Fixpoint digits (width : nat) (n : N) : string :=
  match width with
  | O => ""
  | S width' => digits width' (n `div` 10)%N +:+ String (pretty_N_char (n `mod` 10)%N) ""
  end.

(** A run of [k] zeros, as [zfill] puts it in front. *)
Definition zeros (k : nat) : string := String.concat "" (replicate k "0").

(** ** The world: process environment and clock *)

(** What a call can do to the outside. *)
Inductive event : Type :=
  | ReadClock
  | ReadEnv (key : string).

#[global] Instance event_eq_dec : EqDecision event.
Proof. solve_decision. Defined.

(** [environ] is [os.environ]; [clock n] is what the system clock shows
    at its [n]-th reading and [ticks] counts the readings made so far;
    [trace] lists the reads made so far, oldest first. *)
Record World : Type := mkWorld {
  environ : gmap string string;
  clock : nat -> datetime;
  ticks : nat;
  trace : list event
}.

(** The instant the clock shows at its next reading. *)
Definition current_time (w : World) : datetime := clock w (ticks w).

(** Computations in a world. *)
Definition M (A : Type) : Type := World -> outcome A * World.

#[global] Instance M_ret : MRet M := fun A a w => (Returned a, w).
#[global] Instance M_bind : MBind M := fun A B f m w =>
  match m w with
  | (Returned a, w') => f a w'
  | (Raised e, w') => (Raised e, w')
  end.

(** [os.getenv(key)]: the value of the variable, or [None]. *)
Definition os_getenv (key : string) : M (option string) := fun w =>
  (Returned (environ w !! key),
   mkWorld (environ w) (clock w) (ticks w) (trace w ++ [ReadEnv key])).

(** [datetime.now(timezone.utc)]: one reading of the clock. *)
Definition datetime_now_utc : M datetime := fun w =>
  (Returned (current_time w),
   mkWorld (environ w) (clock w) (S (ticks w)) (trace w ++ [ReadClock])).

(** Truth value of an [Optional[str]]: [None] and [""] are false. *)
Definition truthy (value : option string) : bool :=
  match value with
  | None => false
  | Some "" => false
  | Some (String _ _) => true
  end.

(** ** The source functions *)

(** [_env(key, fallback)]: [value if value else fallback]. *)
Definition _env (key fallback : string) : M string :=
  value ← os_getenv key;
  mret (match value with
        | Some s => if truthy value then s else fallback
        | None => fallback
        end).

(** The literal list of dependency records. *)
Definition dependencies : value :=
  VList [
    VDict [("name", VStr "fastapi"); ("version", VStr "0.115.6")];
    VDict [("name", VStr "uvicorn"); ("version", VStr "0.32.1")];
    VDict [("name", VStr "httpx"); ("version", VStr "0.27.2")]
  ].

(** [build_payload()].  Python evaluates the arguments of a call before
    the call, so the clock is read and rendered before [_env] looks
    [BUILD_TIME] up. *)
Definition build_payload : M value :=
  now ← datetime_now_utc;
  build_time ← _env "BUILD_TIME" (isoformat now);
  git_sha ← _env "GIT_SHA" "dev-snapshot";
  version ← _env "SERVICE_VERSION" "0.0.0";
  mret (VDict [
    ("serviceName", VStr "Invoice API");
    ("techStack", VStr "Python 3.11 + FastAPI");
    ("buildTime", VStr build_time);
    ("gitSha", VStr git_sha);
    ("buildVersion", VStr version);
    ("dependencies", dependencies)
  ]).

(** The handler of [GET /info]. *)
Definition info : M value := build_payload.

(** ** Reading the outcome of a call *)

(** [returns m w a]: run in [w], the computation [m] returns [a]. *)
Definition returns {A : Type} (m : M A) (w : World) (a : A) : Prop :=
  exists w', m w = (Returned a, w').

(** The reads a computation makes when run in [w], oldest first. *)
Definition effects {A : Type} (m : M A) (w : World) : list event :=
  drop (length (trace w)) (trace (snd (m w))).

(** The string [_env] settles on, given what [os.getenv] returned. *)
Definition pick (value : option string) (fallback : string) : string :=
  match value with
  | Some s => if truthy value then s else fallback
  | None => fallback
  end.

(** The world after some reads: the environment is what it was. *)
Definition after (w : World) (readings : nat) (reads : list event) : World :=
  mkWorld (environ w) (clock w) (readings + ticks w) (trace w ++ reads).

(** The dictionary [build_payload] builds from its three resolved strings. *)
Definition payload (build_time git_sha version : string) : value :=
  VDict [
    ("serviceName", VStr "Invoice API");
    ("techStack", VStr "Python 3.11 + FastAPI");
    ("buildTime", VStr build_time);
    ("gitSha", VStr git_sha);
    ("buildVersion", VStr version);
    ("dependencies", dependencies)
  ].

(** ** The documented shape of the response *)

(** The keys of a dictionary, in order. *)
Definition keys (v : value) : list string :=
  match v with
  | VDict items => map fst items
  | _ => []
  end.

Definition is_str (v : value) : bool :=
  match v with
  | VStr _ => true
  | _ => false
  end.

(** One dependency record: [{"name": <string>, "version": <string>}]. *)
Definition is_dependency (v : value) : bool :=
  match v with
  | VDict [(k1, VStr _); (k2, VStr _)] =>
      String.eqb k1 "name" && String.eqb k2 "version"
  | _ => false
  end.

(** The body of [GET /info]: five string fields and the list of
    dependency records, under these six keys in this order. *)
Definition well_shaped (v : value) : bool :=
  match v with
  | VDict [(_, v1); (_, v2); (_, v3); (_, v4); (_, v5); (_, VList deps)] =>
      bool_decide (keys v = ["serviceName"; "techStack"; "buildTime"; "gitSha";
                             "buildVersion"; "dependencies"])
      && is_str v1 && is_str v2 && is_str v3 && is_str v4 && is_str v5
      && forallb is_dependency deps
  | _ => false
  end.

(** ** Sample worlds *)

(** A clock that shows one more microsecond at each reading. *)
Definition ticking_clock (n : nat) : datetime :=
  mkDatetime 2024 1 1 0 0 0 (N.of_nat n).

(** A clock that stands still. *)
Definition stopped_clock (d : datetime) (n : nat) : datetime := d.

(** A fresh process with environment [env]. *)
Definition world (env : gmap string string) : World :=
  mkWorld env ticking_clock 0 [].

(** The environment of the documented scenario. *)
Definition scenario_env : gmap string string :=
  {[ "GIT_SHA" := "abc123";
     "SERVICE_VERSION" := "1.2.3";
     "BUILD_TIME" := "2024-01-01T00:00:00Z" ]}.

(** The documented scenario in a fresh process. *)
Definition scenario_world : World := world scenario_env.

(** The same environment later, under a clock that shows another time. *)
Definition late_world : World :=
  mkWorld scenario_env
    (stopped_clock (mkDatetime 1999 12 31 23 59 59 999999)) 7 [].

(** Only [GIT_SHA] is set. *)
Definition dev_world : World := world {[ "GIT_SHA" := "abc123" ]}.

(** As [dev_world], with variables the service does not look at. *)
Definition noisy_world : World :=
  world {[ "GIT_SHA" := "abc123"; "PATH" := "/usr/bin";
           "BUILD_TIMES" := "never" ]}.

(** [SERVICE_VERSION] is set but empty, [GIT_SHA] is unset. *)
Definition defaults_world : World := world {[ "SERVICE_VERSION" := "" ]}.

(** [GIT_SHA] is a single space. *)
Definition blank_world : World := world {[ "GIT_SHA" := " " ]}.

(** [BUILD_TIME] is not a timestamp. *)
Definition malformed_world : World := world {[ "BUILD_TIME" := "not a date" ]}.

(** ** Requests in a row *)

(** [n] requests to [GET /info], handled one after another.  The handler
    is a coroutine without an [await]: once started it runs to its end,
    so the calls do not interleave and the responses come in the order of
    the requests. *)
Fixpoint serve (n : nat) : M (list value) :=
  match n with
  | O => mret []
  | S n' =>
      p ← info;
      ps ← serve n';
      mret (p :: ps)
  end.

(** The reads of one call of [build_payload], in order. *)
Definition reads_of_call : list event :=
  [ReadClock; ReadEnv "BUILD_TIME"; ReadEnv "GIT_SHA";
   ReadEnv "SERVICE_VERSION"].

(** The record returned in environment [env] when the clock shows [t]. *)
Definition response (env : gmap string string) (t : datetime) : value :=
  payload (pick (env !! "BUILD_TIME") (isoformat t))
          (pick (env !! "GIT_SHA") "dev-snapshot")
          (pick (env !! "SERVICE_VERSION") "0.0.0").

(** ** Running the source functions *)

Lemma pick_unset fallback : pick None fallback = fallback.
Proof. reflexivity. Qed.

Lemma pick_empty fallback : pick (Some "") fallback = fallback.
Proof. reflexivity. Qed.

Lemma pick_set s fallback : s <> "" -> pick (Some s) fallback = s.
Proof. destruct s; [congruence | reflexivity]. Qed.

Lemma _env_run key fallback w :
  _env key fallback w
  = (Returned (pick (environ w !! key) fallback), after w 0 [ReadEnv key]).
Proof. reflexivity. Qed.

Lemma build_payload_run w :
  build_payload w
  = (Returned (payload
       (pick (environ w !! "BUILD_TIME") (isoformat (current_time w)))
       (pick (environ w !! "GIT_SHA") "dev-snapshot")
       (pick (environ w !! "SERVICE_VERSION") "0.0.0")),
     after w 1 [ReadClock; ReadEnv "BUILD_TIME"; ReadEnv "GIT_SHA";
                ReadEnv "SERVICE_VERSION"]).
Proof.
  unfold build_payload, after, mbind, M_bind, datetime_now_utc; simpl.
  rewrite <- !app_assoc. reflexivity.
Qed.

(** ** Fixed-width decimal fields *)

Section Decimal.

Local Open Scope N_scope.

Lemma digit_of_char (x : N) : x < 10 -> digit_of (pretty_N_char x) = Some x.
Proof.
  intros Hx.
  assert (Hcases : x = 0 \/ x = 1 \/ x = 2 \/ x = 3 \/ x = 4 \/ x = 5
                   \/ x = 6 \/ x = 7 \/ x = 8 \/ x = 9) by lia.
  repeat (destruct Hcases as [-> | Hcases]; [reflexivity |]).
  subst x. reflexivity.
Qed.

Lemma append_cons (ch : ascii) (a b : string) :
  String ch a +:+ b = String ch (a +:+ b).
Proof. reflexivity. Qed.

Lemma append_assoc (a b c : string) : (a +:+ b) +:+ c = a +:+ (b +:+ c).
Proof.
  induction a as [| ch a IH]; [reflexivity |].
  rewrite !append_cons, IH. reflexivity.
Qed.

Lemma append_empty_l (a : string) : "" +:+ a = a.
Proof. reflexivity. Qed.

Lemma append_empty_r (a : string) : a +:+ "" = a.
Proof.
  induction a as [| ch a IH]; [reflexivity |].
  rewrite append_cons, IH. reflexivity.
Qed.

Lemma length_append (a b : string) :
  String.length (a +:+ b) = (String.length a + String.length b)%nat.
Proof.
  induction a as [| ch a IH]; [reflexivity |].
  rewrite append_cons. simpl. now rewrite IH.
Qed.

Lemma zeros_S (k : nat) : zeros (S k) = String "0" (zeros k).
Proof.
  unfold zeros. destruct k as [| k]; [reflexivity |].
  change (replicate (S (S k)) "0"%string)
    with ("0"%string :: replicate (S k) "0"%string).
  reflexivity.
Qed.

Lemma zeros_snoc (k : nat) : zeros k +:+ "0" = zeros (S k).
Proof.
  induction k as [| k IH]; [reflexivity |].
  rewrite !zeros_S, append_cons, IH, zeros_S. reflexivity.
Qed.

Lemma digits_length (width : nat) (n : N) : String.length (digits width n) = width.
Proof.
  revert n. induction width as [| width IH]; intros n; simpl; [reflexivity |].
  rewrite length_append, IH. simpl. lia.
Qed.

Lemma digits_0 (width : nat) : digits width 0 = zeros width.
Proof.
  induction width as [| width IH]; [reflexivity |].
  simpl digits. change (0 `div` 10) with 0. rewrite IH.
  change (String (pretty_N_char (0 `mod` 10)) "") with "0"%string.
  apply zeros_snoc.
Qed.

(** What [pretty] prints for [n] is the digits of [n] without the
    leading zeros of a fixed-width field. *)
Lemma pretty_N_go_digits (width : nat) :
  forall (n : N) (s : string),
    n < 10 ^ N.of_nat width ->
    exists k : nat,
      (k <= width)%nat
      /\ pretty_N_go n s = digits k n +:+ s
      /\ digits width n = zeros (width - k) +:+ digits k n.
Proof.
  induction width as [| width IH]; intros n s Hn.
  - exists 0%nat. assert (n = 0) as -> by (simpl in Hn; lia).
    split; [lia | split; [apply pretty_N_go_0 | reflexivity]].
  - destruct (decide (n = 0)) as [-> | Hpos].
    + exists 0%nat. split; [lia | split; [apply pretty_N_go_0 |]].
      rewrite Nat.sub_0_r, digits_0. simpl digits.
      symmetry. apply append_empty_r.
    + assert (Hdiv : n `div` 10 < 10 ^ N.of_nat width).
      { apply N.Div0.div_lt_upper_bound.
        rewrite Nat2N.inj_succ, N.pow_succ_r' in Hn. exact Hn. }
      destruct (IH (n `div` 10) (String (pretty_N_char (n `mod` 10)) s) Hdiv)
        as (k & Hk & Hgo & Hpad).
      exists (S k). split; [lia | split].
      * rewrite pretty_N_go_step by lia. rewrite Hgo.
        simpl digits. rewrite append_assoc. reflexivity.
      * simpl digits. rewrite Hpad, append_assoc.
        replace (S width - S k)%nat with (width - k)%nat by lia.
        reflexivity.
Qed.

(** Within its width, ["%0<width>d"] prints exactly [width] digits. *)
Lemma fmt_d_digits (width : nat) (n : N) :
  (0 < width)%nat -> n < 10 ^ N.of_nat width -> fmt_d width n = digits width n.
Proof.
  intros Hw Hn. unfold fmt_d, zfill, pretty, pretty_N. fold (zeros (width - String.length (if decide (n = 0) then "0"%string else pretty_N_go n ""))).
  destruct (decide (n = 0)) as [-> | Hpos].
  - rewrite digits_0. simpl String.length.
    rewrite zeros_snoc. f_equal. lia.
  - destruct (pretty_N_go_digits width n "" Hn) as (k & Hk & Hgo & Hpad).
    rewrite Hgo, Hpad, length_append, digits_length. simpl String.length.
    rewrite Nat.add_0_r, !append_empty_r. reflexivity.
Qed.

(** Reading a fixed-width field back gives the number printed. *)
Lemma take_digits_app (width : nat) :
  forall (k : nat) (n acc : N) (rest : string),
    n < 10 ^ N.of_nat width ->
    take_digits (width + k) acc (digits width n +:+ rest)
    = take_digits k (acc * 10 ^ N.of_nat width + n) rest.
Proof.
  induction width as [| width IH]; intros k n acc rest Hn.
  - assert (n = 0) as -> by (simpl in Hn; lia).
    simpl. f_equal. lia.
  - assert (Hdiv : n `div` 10 < 10 ^ N.of_nat width).
    { apply N.Div0.div_lt_upper_bound.
      rewrite Nat2N.inj_succ, N.pow_succ_r' in Hn. exact Hn. }
    simpl digits. rewrite append_assoc, append_cons.
    replace (S width + k)%nat with (width + S k)%nat by lia.
    rewrite IH by exact Hdiv.
    simpl take_digits.
    rewrite digit_of_char by (apply N.mod_lt; lia).
    f_equal. rewrite Nat2N.inj_succ, N.pow_succ_r'.
    pose proof (N.div_mod n 10 ltac:(lia)) as Hdm. lia.
Qed.

Lemma take_digits_exact (width : nat) (n : N) (rest : string) :
  n < 10 ^ N.of_nat width ->
  take_digits width 0 (digits width n +:+ rest) = Some (n, rest).
Proof.
  intros Hn. rewrite <- (Nat.add_0_r width) at 1.
  rewrite take_digits_app by exact Hn. simpl. reflexivity.
Qed.

End Decimal.

(** ** [isoformat] writes ISO-8601 *)

Lemma days_in_month_le (y m : N) : (days_in_month y m <= 31)%N.
Proof.
  unfold days_in_month.
  repeat match goal with
         | |- context [match ?x with _ => _ end] => destruct x
         end; lia.
Qed.

Lemma valid_datetime_bounds (d : datetime) :
  valid_datetime d = true ->
  (year d < 10 ^ N.of_nat 4 /\ month d < 10 ^ N.of_nat 2
   /\ day d < 10 ^ N.of_nat 2 /\ hour d < 10 ^ N.of_nat 2
   /\ minute d < 10 ^ N.of_nat 2 /\ second d < 10 ^ N.of_nat 2
   /\ microsecond d < 10 ^ N.of_nat 6)%N.
Proof.
  unfold valid_datetime. rewrite !andb_true_iff.
  rewrite !N.leb_le, !N.ltb_lt.
  pose proof (days_in_month_le (year d) (month d)).
  change (10 ^ N.of_nat 4)%N with 10000%N.
  change (10 ^ N.of_nat 2)%N with 100%N.
  change (10 ^ N.of_nat 6)%N with 1000000%N.
  lia.
Qed.

Lemma expect_cons (c : ascii) (rest : string) :
  expect c (String c "" +:+ rest) = Some rest.
Proof.
  rewrite append_cons. simpl. rewrite Ascii.eqb_refl. reflexivity.
Qed.

Lemma take_fraction_dot (rest : string) :
  take_fraction (String "." rest) = take_digits 6 0 rest.
Proof. reflexivity. Qed.

(** Reading back what [isoformat] wrote for a datetime gives that
    datetime: the string is an ISO-8601 timestamp of that instant. *)
Lemma parse_isoformat (d : datetime) :
  valid_datetime d = true -> parse_iso8601 (isoformat d) = Some d.
Proof.
  intros Hvalid.
  destruct (valid_datetime_bounds d Hvalid)
    as (Hy & Hmo & Hd & Hh & Hmi & Hs & Hus).
  unfold isoformat, parse_iso8601.
  rewrite !fmt_d_digits by (lia || assumption).
  rewrite take_digits_exact by assumption. cbn [mbind option_bind].
  rewrite expect_cons. cbn [mbind option_bind].
  rewrite take_digits_exact by assumption. cbn [mbind option_bind].
  rewrite expect_cons. cbn [mbind option_bind].
  rewrite take_digits_exact by assumption. cbn [mbind option_bind].
  rewrite expect_cons. cbn [mbind option_bind].
  rewrite take_digits_exact by assumption. cbn [mbind option_bind].
  rewrite expect_cons. cbn [mbind option_bind].
  rewrite take_digits_exact by assumption. cbn [mbind option_bind].
  rewrite expect_cons. cbn [mbind option_bind].
  rewrite take_digits_exact by assumption. cbn [mbind option_bind].
  destruct (N.eqb_spec (microsecond d) 0) as [Hzero | Hnonzero].
  - change (take_fraction ("" +:+ "+00:00")) with (Some (0%N, "+00:00")).
    cbn [mbind option_bind]. rewrite <- Hzero.
    destruct d; simpl in *. rewrite Hvalid. reflexivity.
  - rewrite append_assoc, append_cons, append_empty_l, take_fraction_dot.
    rewrite take_digits_exact by assumption. cbn [mbind option_bind].
    destruct d; simpl in *. rewrite Hvalid. reflexivity.
Qed.

Lemma isoformat_inj (d1 d2 : datetime) :
  valid_datetime d1 = true -> valid_datetime d2 = true ->
  isoformat d1 = isoformat d2 -> d1 = d2.
Proof.
  intros H1 H2 Heq.
  apply parse_isoformat in H1, H2. rewrite Heq in H1. congruence.
Qed.

Lemma effects_after {A : Type} (m : M A) (w : World) (a : A)
    (readings : nat) (reads : list event) :
  m w = (Returned a, after w readings reads) -> effects m w = reads.
Proof.
  intros Hrun. unfold effects. rewrite Hrun. simpl.
  apply drop_app_length.
Qed.

(** ** The environment lookup [_env] *)

(** C9: [_env] uses the fallback exactly when the variable is unset or
    is the empty string; every other value, a whitespace-only one such
    as [" "] included, is returned unchanged. *)
Theorem _env_fallback_exactly (w : World) (key fallback : string) :
  ((environ w !! key = None \/ environ w !! key = Some "") ->
   returns (_env key fallback) w fallback)
  /\ (forall s, environ w !! key = Some s -> s <> "" ->
       returns (_env key fallback) w s)
  /\ (environ w !! key = Some " " -> returns (_env key fallback) w " ")
  /\ (forall r, returns (_env key fallback) w r ->
       (r = fallback /\ (environ w !! key = None \/ environ w !! key = Some ""))
       \/ (environ w !! key = Some r /\ r <> "")).
Proof.
  unfold returns. setoid_rewrite _env_run.
  split; [| split; [| split]].
  - intros [-> | ->]; eexists; reflexivity.
  - intros s -> Hs. rewrite pick_set by exact Hs. eexists; reflexivity.
  - intros ->. eexists; reflexivity.
  - intros r [w' Hrun]. injection Hrun as <- _.
    destruct (environ w !! key) as [[| c s] |]; simpl.
    + left. split; [reflexivity | right; reflexivity].
    + right. split; [reflexivity | discriminate].
    + left. split; [reflexivity | left; reflexivity].
Qed.

Lemma _env_fallback_exactly_witness :
  environ blank_world !! "GIT_SHA" = Some " "
  /\ returns (_env "GIT_SHA" "dev-snapshot") blank_world " ".
Proof.
  split; [reflexivity |].
  apply (_env_fallback_exactly blank_world "GIT_SHA" "dev-snapshot").
  reflexivity.
Defined.

(** ** The payload *)

(** C1: when [GIT_SHA] and [SERVICE_VERSION] are set to non-empty
    strings [g] and [v], the returned record has [gitSha] equal to [g]
    and [buildVersion] equal to [v]. *)
Theorem build_payload_set_values (w : World) (g v : string) :
  environ w !! "GIT_SHA" = Some g -> g <> "" ->
  environ w !! "SERVICE_VERSION" = Some v -> v <> "" ->
  exists p, returns build_payload w p
            /\ field "gitSha" p = Some (VStr g)
            /\ field "buildVersion" p = Some (VStr v).
Proof.
  intros Hg Hgne Hv Hvne. eexists. split.
  - eexists. apply build_payload_run.
  - rewrite Hg, Hv, !pick_set by assumption. split; reflexivity.
Qed.

Lemma build_payload_set_values_witness :
  environ scenario_world !! "GIT_SHA" = Some "abc123"
  /\ environ scenario_world !! "SERVICE_VERSION" = Some "1.2.3"
  /\ exists p, returns build_payload scenario_world p
                /\ field "gitSha" p = Some (VStr "abc123")
                /\ field "buildVersion" p = Some (VStr "1.2.3").
Proof.
  split; [reflexivity | split; [reflexivity |]].
  apply (build_payload_set_values scenario_world "abc123" "1.2.3");
    [reflexivity | discriminate | reflexivity | discriminate].
Defined.

(** C2: when [GIT_SHA] is unset or empty the record's [gitSha] is
    ["dev-snapshot"], and when [SERVICE_VERSION] is unset or empty its
    [buildVersion] is ["0.0.0"]. *)
Theorem build_payload_defaults (w : World) :
  ((environ w !! "GIT_SHA" = None \/ environ w !! "GIT_SHA" = Some "") ->
   exists p, returns build_payload w p
             /\ field "gitSha" p = Some (VStr "dev-snapshot"))
  /\ ((environ w !! "SERVICE_VERSION" = None
       \/ environ w !! "SERVICE_VERSION" = Some "") ->
      exists p, returns build_payload w p
                /\ field "buildVersion" p = Some (VStr "0.0.0")).
Proof.
  split; intros Hvar; eexists; (split; [eexists; apply build_payload_run |]);
    destruct Hvar as [-> | ->]; reflexivity.
Qed.

Lemma build_payload_defaults_witness :
  environ defaults_world !! "GIT_SHA" = None
  /\ environ defaults_world !! "SERVICE_VERSION" = Some ""
  /\ (exists p, returns build_payload defaults_world p
                 /\ field "gitSha" p = Some (VStr "dev-snapshot"))
  /\ (exists p, returns build_payload defaults_world p
                 /\ field "buildVersion" p = Some (VStr "0.0.0")).
Proof.
  split; [reflexivity | split; [reflexivity | split]].
  - apply (proj1 (build_payload_defaults defaults_world)). left. reflexivity.
  - apply (proj2 (build_payload_defaults defaults_world)). right. reflexivity.
Defined.

(** C4: whatever the environment, the record has the fixed keys, the
    fixed [serviceName] and [techStack], and the fixed list of three
    dependency records. *)
Theorem build_payload_fixed_fields (w : World) :
  exists p,
    returns build_payload w p
    /\ keys p = ["serviceName"; "techStack"; "buildTime"; "gitSha";
                 "buildVersion"; "dependencies"]
    /\ field "serviceName" p = Some (VStr "Invoice API")
    /\ field "techStack" p = Some (VStr "Python 3.11 + FastAPI")
    /\ field "dependencies" p
       = Some (VList [
           VDict [("name", VStr "fastapi"); ("version", VStr "0.115.6")];
           VDict [("name", VStr "uvicorn"); ("version", VStr "0.32.1")];
           VDict [("name", VStr "httpx"); ("version", VStr "0.27.2")]]).
Proof.
  eexists. split; [eexists; apply build_payload_run |].
  repeat split.
Qed.

(** C6: in the environment [{GIT_SHA: "abc123", SERVICE_VERSION:
    "1.2.3", BUILD_TIME: "2024-01-01T00:00:00Z"}] the call returns
    exactly the documented record, whatever the clock shows. *)
Theorem build_payload_scenario (clk : nat -> datetime) (n : nat) (tr : list event) :
  returns build_payload (mkWorld scenario_env clk n tr)
    (VDict [
       ("serviceName", VStr "Invoice API");
       ("techStack", VStr "Python 3.11 + FastAPI");
       ("buildTime", VStr "2024-01-01T00:00:00Z");
       ("gitSha", VStr "abc123");
       ("buildVersion", VStr "1.2.3");
       ("dependencies", VList [
          VDict [("name", VStr "fastapi"); ("version", VStr "0.115.6")];
          VDict [("name", VStr "uvicorn"); ("version", VStr "0.32.1")];
          VDict [("name", VStr "httpx"); ("version", VStr "0.27.2")]])]).
Proof.
  eexists. rewrite build_payload_run. reflexivity.
Qed.

(** C3: when [BUILD_TIME] is unset, [buildTime] is the ISO-8601
    rendering of the instant the clock shows during the call, and it is
    computed anew at each call: a second call renders the clock's next
    reading.  The rendering reads back as the instant itself, so two
    calls made at different instants return different records. *)
Theorem build_time_is_call_time (w : World) :
  environ w !! "BUILD_TIME" = None ->
  let t1 := clock w (ticks w) in
  let t2 := clock w (S (ticks w)) in
  exists p1 w1 p2 w2,
    build_payload w = (Returned p1, w1)
    /\ build_payload w1 = (Returned p2, w2)
    /\ field "buildTime" p1 = Some (VStr (isoformat t1))
    /\ field "buildTime" p2 = Some (VStr (isoformat t2))
    /\ (valid_datetime t1 = true -> parse_iso8601 (isoformat t1) = Some t1)
    /\ (valid_datetime t1 = true -> valid_datetime t2 = true ->
        t1 <> t2 -> p1 <> p2).
Proof.
  intros Hunset t1 t2.
  do 4 eexists.
  split; [apply build_payload_run |].
  split; [apply build_payload_run |].
  simpl environ. rewrite Hunset, !pick_unset.
  split; [reflexivity |].
  split; [reflexivity |].
  split; [apply parse_isoformat |].
  intros Hv1 Hv2 Hne Heq. apply Hne.
  apply (isoformat_inj t1 t2 Hv1 Hv2).
  unfold payload in Heq. injection Heq as Heq. exact Heq.
Qed.

Lemma build_time_is_call_time_witness :
  environ dev_world !! "BUILD_TIME" = None
  /\ exists p1 w1 p2 w2,
       build_payload dev_world = (Returned p1, w1)
       /\ build_payload w1 = (Returned p2, w2)
       /\ field "buildTime" p1 = Some (VStr "2024-01-01T00:00:00+00:00")
       /\ field "buildTime" p2 = Some (VStr "2024-01-01T00:00:00.000001+00:00")
       /\ parse_iso8601 "2024-01-01T00:00:00+00:00" = Some (ticking_clock 0)
       /\ p1 <> p2.
Proof.
  split; [reflexivity |].
  destruct (build_time_is_call_time dev_world eq_refl)
    as (p1 & w1 & p2 & w2 & H1 & H2 & Hf1 & Hf2 & Hparse & Hfresh).
  exists p1, w1, p2, w2.
  split; [exact H1 |]. split; [exact H2 |].
  split; [exact Hf1 |]. split; [exact Hf2 |].
  split; [exact (Hparse eq_refl) |].
  apply Hfresh; [reflexivity | reflexivity | discriminate].
Defined.

(** C5: when [BUILD_TIME] is set to a non-empty string, two calls under
    the same environment return the same record, whatever the clock
    shows at each of them. *)
Theorem build_payload_override_deterministic (w1 w2 : World) (s : string) :
  environ w1 = environ w2 ->
  environ w1 !! "BUILD_TIME" = Some s -> s <> "" ->
  exists p, returns build_payload w1 p /\ returns build_payload w2 p.
Proof.
  intros Henv Hset Hne. eexists. split.
  - eexists. apply build_payload_run.
  - eexists. rewrite build_payload_run, <- Henv, Hset, !pick_set by exact Hne.
    reflexivity.
Qed.

Lemma build_payload_override_deterministic_witness :
  environ scenario_world = environ late_world
  /\ environ scenario_world !! "BUILD_TIME" = Some "2024-01-01T00:00:00Z"
  /\ current_time scenario_world <> current_time late_world
  /\ exists p, returns build_payload scenario_world p
                /\ returns build_payload late_world p.
Proof.
  split; [reflexivity | split; [reflexivity | split; [discriminate |]]].
  apply (build_payload_override_deterministic scenario_world late_world
           "2024-01-01T00:00:00Z");
    [reflexivity | reflexivity | discriminate].
Defined.

(** C10: the record depends on no environment variable other than
    [BUILD_TIME], [GIT_SHA] and [SERVICE_VERSION]: two environments that
    agree on these three give, at the same clock value, equal records. *)
Theorem build_payload_reads_three_variables (w1 w2 : World) :
  environ w1 !! "BUILD_TIME" = environ w2 !! "BUILD_TIME" ->
  environ w1 !! "GIT_SHA" = environ w2 !! "GIT_SHA" ->
  environ w1 !! "SERVICE_VERSION" = environ w2 !! "SERVICE_VERSION" ->
  current_time w1 = current_time w2 ->
  exists p, returns build_payload w1 p /\ returns build_payload w2 p.
Proof.
  intros Hb Hg Hv Ht. eexists. split.
  - eexists. apply build_payload_run.
  - eexists. rewrite build_payload_run, <- Hb, <- Hg, <- Hv, <- Ht.
    reflexivity.
Qed.

Lemma build_payload_reads_three_variables_witness :
  environ dev_world <> environ noisy_world
  /\ exists p, returns build_payload dev_world p
                /\ returns build_payload noisy_world p.
Proof.
  split.
  - intros Heq. apply (f_equal (fun env => env !! "PATH")) in Heq.
    discriminate Heq.
  - apply (build_payload_reads_three_variables dev_world noisy_world);
      reflexivity.
Defined.

(** ** Effects and totality *)

(** C7, as the code has it: a call leaves the environment as it was and
    makes exactly four reads, the clock first and once, then the three
    variables; the clock is read on every call, also when [BUILD_TIME]
    is set, and its reading is then not used. *)
Theorem build_payload_effects (w : World) :
  (exists p,
     build_payload w
     = (Returned p,
        after w 1 [ReadClock; ReadEnv "BUILD_TIME"; ReadEnv "GIT_SHA";
                   ReadEnv "SERVICE_VERSION"]))
  /\ effects build_payload w
     = [ReadClock; ReadEnv "BUILD_TIME"; ReadEnv "GIT_SHA";
        ReadEnv "SERVICE_VERSION"]
  /\ environ (build_payload w).2 = environ w
  /\ ticks (build_payload w).2 = S (ticks w)
  /\ (forall s, environ w !! "BUILD_TIME" = Some s -> s <> "" ->
       exists p, returns build_payload w p
                 /\ field "buildTime" p = Some (VStr s)).
Proof.
  split; [eexists; apply build_payload_run |].
  split; [eapply effects_after, build_payload_run |].
  rewrite build_payload_run.
  split; [reflexivity |]. split; [reflexivity |].
  intros s Hset Hne. eexists. split; [eexists; apply build_payload_run |].
  rewrite Hset, pick_set by exact Hne. reflexivity.
Qed.

Lemma build_payload_effects_witness :
  environ scenario_world !! "BUILD_TIME" = Some "2024-01-01T00:00:00Z"
  /\ effects build_payload scenario_world
     = [ReadClock; ReadEnv "BUILD_TIME"; ReadEnv "GIT_SHA";
        ReadEnv "SERVICE_VERSION"]
  /\ exists p, returns build_payload scenario_world p
                /\ field "buildTime" p = Some (VStr "2024-01-01T00:00:00Z").
Proof.
  split; [reflexivity |].
  destruct (build_payload_effects scenario_world) as (_ & Heff & _ & _ & Hunused).
  split; [exact Heff |].
  apply Hunused; [reflexivity | discriminate].
Defined.

(** C7, as the claim has it, fails: with [BUILD_TIME] set to a non-empty
    string the call still reads the clock. *)
Lemma clock_read_despite_override :
  environ scenario_world !! "BUILD_TIME" = Some "2024-01-01T00:00:00Z"
  /\ ~ (ReadClock ∉ effects build_payload scenario_world)
  /\ ticks (build_payload scenario_world).2 <> ticks scenario_world.
Proof.
  split; [reflexivity |]. split.
  - intros Hnot. apply Hnot. vm_compute. left.
  - vm_compute. discriminate.
Qed.

(** C8: [build_payload] returns a record of the documented shape in
    every world, and so does [_env] a string; no call raises.  Whatever
    non-empty string a variable holds is passed on unchanged, without
    being parsed or checked. *)
Theorem build_payload_total (w : World) :
  (exists p w', build_payload w = (Returned p, w') /\ well_shaped p = true)
  /\ (forall e w', build_payload w <> (Raised e, w'))
  /\ (forall key fallback, exists r, returns (_env key fallback) w r)
  /\ (forall s, s <> "" -> environ w !! "BUILD_TIME" = Some s ->
       exists p, returns build_payload w p
                 /\ field "buildTime" p = Some (VStr s))
  /\ (forall s, s <> "" -> environ w !! "GIT_SHA" = Some s ->
       exists p, returns build_payload w p
                 /\ field "gitSha" p = Some (VStr s))
  /\ (forall s, s <> "" -> environ w !! "SERVICE_VERSION" = Some s ->
       exists p, returns build_payload w p
                 /\ field "buildVersion" p = Some (VStr s)).
Proof.
  split; [do 2 eexists; split; [apply build_payload_run | reflexivity] |].
  split; [intros e w'; rewrite build_payload_run; discriminate |].
  split; [intros key fallback; do 2 eexists; apply _env_run |].
  repeat split; intros s Hne Hset; eexists;
    (split; [eexists; apply build_payload_run |]);
    rewrite Hset, pick_set by exact Hne; reflexivity.
Qed.

Lemma build_payload_total_witness :
  environ malformed_world !! "BUILD_TIME" = Some "not a date"
  /\ parse_iso8601 "not a date" = None
  /\ exists p, returns build_payload malformed_world p
                /\ field "buildTime" p = Some (VStr "not a date").
Proof.
  split; [reflexivity | split; [reflexivity |]].
  destruct (build_payload_total malformed_world) as (_ & _ & _ & Hopaque & _).
  apply Hopaque; [discriminate | reflexivity].
Defined.

(** ** Requests in a row: what [serve] returns *)

Lemma after_after (w : World) (n1 n2 : nat) (r1 r2 : list event) :
  after (after w n1 r1) n2 r2 = after w (n2 + n1) (r1 ++ r2)%list.
Proof.
  unfold after. simpl. f_equal; [lia | symmetry; apply app_assoc].
Qed.

Lemma info_run (w : World) :
  info w = (Returned (response (environ w) (current_time w)),
            after w 1 reads_of_call).
Proof. apply build_payload_run. Qed.

Lemma serve_run (n : nat) :
  forall w : World,
    serve n w
    = (Returned (map (fun i => response (environ w) (clock w (i + ticks w)))
                     (seq 0 n)),
       after w n (concat (replicate n reads_of_call))).
Proof.
  induction n as [| n IH]; intros w.
  - unfold after. simpl. rewrite app_nil_r. destruct w; reflexivity.
  - change (serve (S n) w)
      with (match info w with
            | (Returned p, w1) =>
                match serve n w1 with
                | (Returned ps, w2) => (Returned (p :: ps), w2)
                | (Raised e, w2) => (Raised e, w2)
                end
            | (Raised e, w1) => (Raised e, w1)
            end).
    rewrite info_run, IH, after_after.
    rewrite Nat.add_1_r.
    change (concat (replicate (S n) reads_of_call))
      with (reads_of_call ++ concat (replicate n reads_of_call))%list.
    f_equal. f_equal.
    change (seq 0 (S n)) with (0%nat :: seq 1 n).
    rewrite <- seq_shift, map_cons, map_map.
    f_equal. apply map_ext. intros i. simpl.
    rewrite Nat.add_succ_r. reflexivity.
Qed.

(** ** Lengths of the rendered fields *)

Lemma length_zeros (k : nat) : String.length (zeros k) = k.
Proof.
  induction k as [| k IH]; [reflexivity |].
  rewrite zeros_S. simpl. now rewrite IH.
Qed.

Lemma length_fmt_d (width : nat) (n : N) :
  (width <= String.length (fmt_d width n))%nat.
Proof.
  unfold fmt_d, zfill. fold (zeros (width - String.length (pretty n))).
  rewrite length_append, length_zeros. lia.
Qed.

Lemma isoformat_length_ge (d : datetime) :
  (25 <= String.length (isoformat d))%nat.
Proof.
  unfold isoformat. rewrite !length_append.
  pose proof (length_fmt_d 4 (year d)).
  pose proof (length_fmt_d 2 (month d)).
  pose proof (length_fmt_d 2 (day d)).
  pose proof (length_fmt_d 2 (hour d)).
  pose proof (length_fmt_d 2 (minute d)).
  pose proof (length_fmt_d 2 (second d)).
  simpl String.length. lia.
Qed.

Lemma isoformat_nonempty (d : datetime) : isoformat d <> "".
Proof.
  intros Hempty. pose proof (isoformat_length_ge d) as Hlen.
  rewrite Hempty in Hlen. simpl in Hlen. lia.
Qed.

Lemma pick_nonempty (value : option string) (fallback : string) :
  fallback <> "" -> pick value fallback <> "".
Proof.
  intros Hfb. destruct value as [[| c s] |]; simpl; [exact Hfb | discriminate | exact Hfb].
Qed.


(** ** Further properties of [_env] and [build_payload] *)

(** X1: [_env] returns the empty string exactly when the fallback is
    empty and the variable is unset or empty; with a non-empty fallback
    its result is never empty. *)
Theorem _env_returns_empty_iff (w : World) (key fallback : string) :
  (returns (_env key fallback) w ""
   <-> fallback = ""
       /\ (environ w !! key = None \/ environ w !! key = Some ""))
  /\ (fallback <> "" -> forall r, returns (_env key fallback) w r -> r <> "").
Proof.
  unfold returns. setoid_rewrite _env_run. split; [split |].
  - intros [w' Hrun]. injection Hrun as Hpick _.
    destruct (environ w !! key) as [[| c s] |]; simpl in Hpick;
      [auto | discriminate | auto].
  - intros [-> [-> | ->]]; eexists; reflexivity.
  - intros Hfb r [w' Hrun]. injection Hrun as <- _.
    apply pick_nonempty, Hfb.
Qed.

Lemma _env_returns_empty_iff_witness :
  environ defaults_world !! "SERVICE_VERSION" = Some ""
  /\ returns (_env "SERVICE_VERSION" "") defaults_world ""
  /\ ~ returns (_env "SERVICE_VERSION" "0.0.0") defaults_world "".
Proof.
  split; [reflexivity |]. split.
  - apply (proj1 (_env_returns_empty_iff defaults_world "SERVICE_VERSION" "")).
    split; [reflexivity | right; reflexivity].
  - intros Hret.
    apply (proj2 (_env_returns_empty_iff defaults_world "SERVICE_VERSION" "0.0.0")
             ltac:(discriminate) "" Hret).
    reflexivity.
Defined.

(** X2: in every world the three configurable fields of the record,
    [buildTime], [gitSha] and [buildVersion], are non-empty strings. *)
Theorem build_payload_fields_nonempty (w : World) :
  exists p bt gs bv,
    returns build_payload w p
    /\ field "buildTime" p = Some (VStr bt)
    /\ field "gitSha" p = Some (VStr gs)
    /\ field "buildVersion" p = Some (VStr bv)
    /\ bt <> "" /\ gs <> "" /\ bv <> "".
Proof.
  do 4 eexists. split; [eexists; apply build_payload_run |].
  split; [reflexivity |]. split; [reflexivity |]. split; [reflexivity |].
  split; [apply pick_nonempty, isoformat_nonempty |].
  split; apply pick_nonempty; discriminate.
Qed.

(** X3: each configurable field depends on its own variable only:
    [gitSha] on [GIT_SHA], [buildVersion] on [SERVICE_VERSION], and
    [buildTime] on [BUILD_TIME] and the clock. *)
Theorem build_payload_field_dependencies (w1 w2 : World) :
  exists p1 p2,
    returns build_payload w1 p1 /\ returns build_payload w2 p2
    /\ (environ w1 !! "GIT_SHA" = environ w2 !! "GIT_SHA" ->
        field "gitSha" p1 = field "gitSha" p2)
    /\ (environ w1 !! "SERVICE_VERSION" = environ w2 !! "SERVICE_VERSION" ->
        field "buildVersion" p1 = field "buildVersion" p2)
    /\ (environ w1 !! "BUILD_TIME" = environ w2 !! "BUILD_TIME" ->
        current_time w1 = current_time w2 ->
        field "buildTime" p1 = field "buildTime" p2).
Proof.
  do 2 eexists.
  split; [eexists; apply build_payload_run |].
  split; [eexists; apply build_payload_run |].
  split; [intros ->; reflexivity |].
  split; [intros ->; reflexivity |].
  intros -> ->. reflexivity.
Qed.

Lemma build_payload_field_dependencies_witness :
  environ dev_world !! "GIT_SHA" = environ late_world !! "GIT_SHA"
  /\ environ dev_world !! "SERVICE_VERSION"
     <> environ late_world !! "SERVICE_VERSION"
  /\ exists p1 p2,
       returns build_payload dev_world p1
       /\ returns build_payload late_world p2
       /\ field "gitSha" p1 = field "gitSha" p2.
Proof.
  split; [reflexivity | split; [discriminate |]].
  destruct (build_payload_field_dependencies dev_world late_world)
    as (p1 & p2 & H1 & H2 & Hsha & _).
  exists p1, p2. split; [exact H1 | split; [exact H2 |]].
  apply Hsha. reflexivity.
Defined.

Lemma pick_insert_empty_delete (env : gmap string string)
    (key k fallback : string) :
  pick (<[key := ""]> env !! k) fallback = pick (delete key env !! k) fallback.
Proof.
  destruct (decide (key = k)) as [-> | Hne].
  - rewrite lookup_insert_eq, lookup_delete_eq. reflexivity.
  - rewrite lookup_insert_ne, lookup_delete_ne by exact Hne. reflexivity.
Qed.

(** X4: setting a variable to the empty string and removing it from
    the environment are the same to [build_payload], for every variable
    and every environment. *)
Theorem build_payload_empty_same_as_unset
    (env : gmap string string) (key : string)
    (clk : nat -> datetime) (n : nat) (tr : list event) :
  (build_payload (mkWorld (<[key := ""]> env) clk n tr)).1
  = (build_payload (mkWorld (delete key env) clk n tr)).1.
Proof.
  rewrite !build_payload_run. simpl.
  rewrite !pick_insert_empty_delete. reflexivity.
Qed.



(** ** Further properties of requests in a row *)


Lemma map_const_seq {A : Type} (a : A) (n start : nat) :
  map (fun _ => a) (seq start n) = replicate n a.
Proof.
  revert start. induction n as [| n IH]; intros start; [reflexivity |].
  simpl. f_equal. apply IH.
Qed.


(** X7: with [BUILD_TIME] unset or empty, the response to the [i]-th
    of [n] requests in a row (counting from 0) carries the rendering of
    the clock's [i]-th next reading: no response reuses an earlier
    timestamp. *)
Theorem serve_build_time_fresh (n i : nat) (w : World) :
  (environ w !! "BUILD_TIME" = None \/ environ w !! "BUILD_TIME" = Some "") ->
  (i < n)%nat ->
  exists ps p,
    returns (serve n) w ps
    /\ ps !! i = Some p
    /\ field "buildTime" p
       = Some (VStr (isoformat (clock w (i + ticks w)))).
Proof.
  intros Hvar Hi. do 2 eexists.
  split; [eexists; apply serve_run |].
  split.
  - rewrite list_lookup_fmap, lookup_seq_lt by exact Hi. reflexivity.
  - unfold response. destruct Hvar as [-> | ->]; reflexivity.
Qed.

Lemma serve_build_time_fresh_witness :
  environ dev_world !! "BUILD_TIME" = None
  /\ exists ps p,
       returns (serve 3) dev_world ps
       /\ ps !! 2%nat = Some p
       /\ field "buildTime" p
          = Some (VStr "2024-01-01T00:00:00.000002+00:00").
Proof.
  split; [reflexivity |].
  apply (serve_build_time_fresh 3 2 dev_world); [left; reflexivity | lia].
Defined.

(** X8: with [BUILD_TIME] set to a non-empty string, [n] requests in a
    row return [n] copies of the record a single call returns, whatever
    the clock shows in between. *)
Theorem serve_override_constant (n : nat) (w : World) (s : string) :
  environ w !! "BUILD_TIME" = Some s -> s <> "" ->
  exists p,
    returns build_payload w p /\ returns (serve n) w (replicate n p).
Proof.
  intros Hset Hne. eexists.
  split; [eexists; apply build_payload_run |].
  eexists. rewrite serve_run. f_equal. f_equal.
  rewrite Hset, pick_set by exact Hne.
  rewrite (map_ext _ (fun _ => response (environ w) (current_time w))).
  - unfold response. rewrite Hset, pick_set by exact Hne.
    apply map_const_seq.
  - intros i. unfold response. rewrite Hset, !pick_set by exact Hne.
    reflexivity.
Qed.

Lemma serve_override_constant_witness :
  environ scenario_world !! "BUILD_TIME" = Some "2024-01-01T00:00:00Z"
  /\ clock scenario_world 0 <> clock scenario_world 1
  /\ exists p,
       returns build_payload scenario_world p
       /\ returns (serve 2) scenario_world [p; p].
Proof.
  split; [reflexivity | split; [discriminate |]].
  apply (serve_override_constant 2 scenario_world "2024-01-01T00:00:00Z");
    [reflexivity | discriminate].
Defined.
